(** * Social-network API (users, thoughts, friendships) over a document store

    Shallow embedding of [src/index.js]: an Express application whose twelve
    route handlers translate HTTP requests into Mongoose queries on two
    collections, [User] and [Thought].

    Modelling choices.
    - A collection is the list of its documents in natural (insertion) order;
      every query acts on the first document matching its filter, as
      [findOne], [findById], [findOneAndUpdate] and [findOneAndDelete] do.
    - An [ObjectId] is a natural number.  Route parameters are taken after
      their cast to [ObjectId].  The identifier a new document receives
      (generated by the driver, or the [_id] field of the request body) is an
      explicit argument of the two create handlers; the primary-key index of
      the store rejects it when it is already used.
    - [unique: true] is the unique index MongoDB maintains on the path: an
      insert or update producing a duplicate is rejected with a duplicate-key
      error, which the handlers' [catch] turns into a 400 response.
    - Schema setters ([trim]) run on created documents, on update values and
      on query filters cast through the schema; update validators
      ([runValidators: true]) run on the paths present in the update and
      before the query is sent to the store.
    - A request body is the part of [req.body] that the schema keeps: the
      four paths of a user, the two string paths of a thought.  The [Date]
      path [createdAt] and the embedded [reactions] are left out: no handler
      reads them.
    - Strings are byte strings; [length] counts bytes and [trim] removes the
      ASCII white space characters.
    - Each handler runs to completion before the next request is served.
    - A lost connection and a route parameter that is no [ObjectId] are
      outside the model; the queries of the get, delete and friendship
      handlers then raise nothing, and their [catch] clauses (status 500)
      have no run. *)

From Stdlib Require Import List String Ascii PeanoNat NArith Bool.
Import ListNotations.

(* ------------------------------------------------------------------ *)
(** ** Regular expressions (for the [match] validator of [email])      *)
(* ------------------------------------------------------------------ *)

Module Regex.

Inductive re : Type :=
| Void
| Eps
| Class (p : ascii -> bool)
| Seq (r1 r2 : re)
| Alt (r1 r2 : re)
| Star (r : re).

Definition Plus (r : re) : re := Seq r (Star r).

Fixpoint nullable (r : re) : bool :=
  match r with
  | Void => false
  | Eps => true
  | Class _ => false
  | Seq r1 r2 => nullable r1 && nullable r2
  | Alt r1 r2 => nullable r1 || nullable r2
  | Star _ => true
  end.

(** Brzozowski derivative: the words [w] such that [c :: w] matches [r]. *)
Fixpoint deriv (c : ascii) (r : re) : re :=
  match r with
  | Void => Void
  | Eps => Void
  | Class p => if p c then Eps else Void
  | Seq r1 r2 =>
      if nullable r1
      then Alt (Seq (deriv c r1) r2) (deriv c r2)
      else Seq (deriv c r1) r2
  | Alt r1 r2 => Alt (deriv c r1) (deriv c r2)
  | Star r1 => Seq (deriv c r1) (Star r1)
  end.

(** [test r s]: the whole of [s] matches [r] (a pattern anchored by
    [^] and [$]). *)
Fixpoint test (r : re) (s : string) : bool :=
  match s with
  | EmptyString => nullable r
  | String c s' => test (deriv c r) s'
  end.

Definition between (lo hi c : ascii) : bool :=
  (N_of_ascii lo <=? N_of_ascii c)%N && (N_of_ascii c <=? N_of_ascii hi)%N.

Definition one_of (cs : string) (c : ascii) : bool :=
  existsb (Ascii.eqb c) (list_ascii_of_string cs).

Definition letter (c : ascii) : bool :=
  between "a" "z" c || between "A" "Z" c.

Definition alnum (c : ascii) : bool :=
  letter c || between "0" "9" c.

End Regex.

(* ------------------------------------------------------------------ *)
(** ** Strings: [String.prototype.trim]                                *)
(* ------------------------------------------------------------------ *)

(** TAB, LF, VT, FF, CR and SPACE. *)
Definition is_space (c : ascii) : bool :=
  let n := N_of_ascii c in
  ((9 <=? n)%N && (n <=? 13)%N) || (n =? 32)%N.

Fixpoint trimStart (s : string) : string :=
  match s with
  | EmptyString => EmptyString
  | String c r => if is_space c then trimStart r else s
  end.

Fixpoint trimEnd (s : string) : string :=
  match s with
  | EmptyString => EmptyString
  | String c r =>
      match trimEnd r with
      | EmptyString => if is_space c then EmptyString else String c EmptyString
      | r' => String c r'
      end
  end.

Definition trim (s : string) : string := trimEnd (trimStart s).

Definition nonempty (s : string) : bool :=
  negb (String.eqb s EmptyString).

(* ------------------------------------------------------------------ *)
(** ** The document store                                              *)
(* ------------------------------------------------------------------ *)

Definition ObjectId : Type := N.

(** Errors raised by a model operation and caught by the handler. *)
Inductive MongoError : Type :=
| ValidationError      (* a schema validator rejected the document *)
| DuplicateKey.        (* E11000: a unique index rejected the write *)

Inductive result (A : Type) : Type :=
| Ok (a : A)
| Throw (e : MongoError).
Arguments Ok {A} a.
Arguments Throw {A} e.

Definition bind {A B : Type} (r : result A) (k : A -> result B) : result B :=
  match r with
  | Ok a => k a
  | Throw e => Throw e
  end.

(** [try r catch (err) h] *)
Definition catch {A : Type} (r : result A) (h : MongoError -> A) : A :=
  match r with
  | Ok a => a
  | Throw e => h e
  end.

Notation "'await' x <- e ; k" := (bind e (fun x => k))
  (at level 10, x pattern, e at level 100, k at level 200).

(** Every document carries its primary key. *)
Class Document (D : Type) : Type := _id : D -> ObjectId.

Section Collection.
Context {D : Type} `{Document D}.

Definition hasId (i : ObjectId) (d : D) : bool := N.eqb (_id d) i.

(** [Model.findOne(filter)] *)
Definition findOne (p : D -> bool) (c : list D) : option D := find p c.

(** The collection after an update of the first document matching [p]. *)
Fixpoint updateOne (p : D -> bool) (f : D -> D) (c : list D) : list D :=
  match c with
  | [] => []
  | d :: r => if p d then f d :: r else d :: updateOne p f r
  end.

(** The collection without the first document matching [p]. *)
Fixpoint deleteOne (p : D -> bool) (c : list D) : list D :=
  match c with
  | [] => []
  | d :: r => if p d then r else d :: deleteOne p r
  end.

(** [Model.deleteMany(filter)] *)
Definition deleteMany (p : D -> bool) (c : list D) : list D :=
  filter (fun d => negb (p d)) c.

(** [Model.findOneAndUpdate(filter, update, {new: true})]: the updated
    document ([null] when nothing matches) and the collection. *)
Definition findOneAndUpdate (p : D -> bool) (f : D -> D) (c : list D)
  : option D * list D :=
  (option_map f (findOne p c), updateOne p f c).

(** [Model.findOneAndDelete(filter)] *)
Definition findOneAndDelete (p : D -> bool) (c : list D)
  : option D * list D :=
  (findOne p c, deleteOne p c).

Definition findById (i : ObjectId) (c : list D) : option D :=
  findOne (hasId i) c.

Definition findByIdAndUpdate (i : ObjectId) (f : D -> D) (c : list D)
  : option D * list D :=
  findOneAndUpdate (hasId i) f c.

Definition findByIdAndDelete (i : ObjectId) (c : list D)
  : option D * list D :=
  findOneAndDelete (hasId i) c.

(** [insertOne]: the primary key is unique. *)
Definition insertOne (d : D) (c : list D) : result (list D) :=
  if existsb (hasId (_id d)) c then Throw DuplicateKey else Ok (c ++ [d]).

End Collection.

(** Array update operators on a path holding identifiers. *)
Definition addToSet (x : ObjectId) (l : list ObjectId) : list ObjectId :=
  if existsb (N.eqb x) l then l else l ++ [x].

Definition pull (x : ObjectId) (l : list ObjectId) : list ObjectId :=
  filter (fun y => negb (N.eqb y x)) l.

Definition push (x : ObjectId) (l : list ObjectId) : list ObjectId :=
  l ++ [x].

Definition orElse {A : Type} (o : option A) (d : A) : A :=
  match o with
  | Some a => a
  | None => d
  end.

(* ------------------------------------------------------------------ *)
(** ** [userSchema] and the [User] model                               *)
(* ------------------------------------------------------------------ *)

Module User.

Record doc : Type := mk {
  id : ObjectId;
  username : string;
  email : string;
  thoughts : list ObjectId;
  friends : list ObjectId
}.

(** The schema paths of a request body; [None] is an absent field. *)
Record body : Type := mkBody {
  b_username : option string;
  b_email : option string;
  b_thoughts : option (list ObjectId);
  b_friends : option (list ObjectId)
}.

(** [/^[a-zA-Z0-9._%+-]+@[a-zA-Z0-9.-]+\.[a-zA-Z]{2,}$/] *)
Definition email_match : Regex.re :=
  let local c := Regex.alnum c || Regex.one_of "._%+-" c in
  let host c := Regex.alnum c || Regex.one_of ".-" c in
  Regex.Seq (Regex.Plus (Regex.Class local))
    (Regex.Seq (Regex.Class (Ascii.eqb "@"))
      (Regex.Seq (Regex.Plus (Regex.Class host))
        (Regex.Seq (Regex.Class (Ascii.eqb "."))
          (Regex.Seq (Regex.Class Regex.letter)
            (Regex.Seq (Regex.Class Regex.letter)
              (Regex.Star (Regex.Class Regex.letter))))))).

(** [required: true, trim: true], on the value after the setter. *)
Definition valid_username (v : string) : bool := nonempty v.

(** [required: true, match: ...] *)
Definition valid_email (v : string) : bool :=
  nonempty v && Regex.test email_match v.

Definition set_thoughts (v : list ObjectId) (u : doc) : doc :=
  mk (id u) (username u) (email u) v (friends u).
Definition set_friends (v : list ObjectId) (u : doc) : doc :=
  mk (id u) (username u) (email u) (thoughts u) v.

(** The unique indexes on [username] and [email]. *)
Definition sameUsername (v : string) (u : doc) : bool :=
  String.eqb (username u) v.
Definition sameEmail (v : string) (u : doc) : bool :=
  String.eqb (email u) v.
Definition clashes (d : doc) (c : list doc) : bool :=
  existsb (sameUsername (username d)) c || existsb (sameEmail (email d)) c.

#[global] Instance document : Document doc := id.

(** [User.create(req.body)]: build the document (setters, array
    defaults), validate it, insert it. *)
Definition create (oid : ObjectId) (b : body) (c : list doc)
  : result (doc * list doc) :=
  match option_map trim (b_username b), b_email b with
  | Some name, Some mail =>
      if valid_username name && valid_email mail then
        let d := mk oid name mail
                    (orElse (b_thoughts b) []) (orElse (b_friends b) []) in
        if clashes d c then Throw DuplicateKey
        else await c' <- insertOne d c; Ok (d, c')
      else Throw ValidationError
  | _, _ => Throw ValidationError
  end.

(** The update document [req.body] after casting: [$set] of the paths
    that are present. *)
Definition cast (b : body) : body :=
  mkBody (option_map trim (b_username b)) (b_email b)
         (b_thoughts b) (b_friends b).

Definition apply (b : body) (u : doc) : doc :=
  mk (id u)
     (orElse (b_username b) (username u))
     (orElse (b_email b) (email u))
     (orElse (b_thoughts b) (thoughts u))
     (orElse (b_friends b) (friends u)).

(** Update validators: only the paths of the update are validated. *)
Definition validUpdate (b : body) : bool :=
  match b_username b with Some v => valid_username v | None => true end
  && match b_email b with Some v => valid_email v | None => true end.

(** [User.findByIdAndUpdate(id, req.body, {new: true, runValidators: true})] *)
Definition findByIdAndUpdateBody (i : ObjectId) (b : body) (c : list doc)
  : result (option doc * list doc) :=
  let upd := cast b in
  if validUpdate upd then
    match findById i c with
    | None => Ok (None, c)
    | Some u =>
        if clashes (apply upd u) (deleteOne (hasId i) c) then Throw DuplicateKey
        else Ok (findByIdAndUpdate i (apply upd) c)
    end
  else Throw ValidationError.

End User.

(* ------------------------------------------------------------------ *)
(** ** [thoughtSchema] and the [Thought] model                         *)
(* ------------------------------------------------------------------ *)

Module Thought.

Record doc : Type := mk {
  id : ObjectId;
  thoughtText : string;
  username : string
}.

Record body : Type := mkBody {
  b_thoughtText : option string;
  b_username : option string
}.

(** [required: true, minlength: 1, maxlength: 280] *)
Definition valid_thoughtText (v : string) : bool :=
  nonempty v && Nat.leb 1 (String.length v) && Nat.leb (String.length v) 280.

(** [required: true] *)
Definition valid_username (v : string) : bool := nonempty v.

#[global] Instance document : Document doc := id.

(** [Thought.create(req.body)] *)
Definition create (oid : ObjectId) (b : body) (c : list doc)
  : result (doc * list doc) :=
  match b_thoughtText b, b_username b with
  | Some text, Some name =>
      if valid_thoughtText text && valid_username name then
        let d := mk oid text name in
        await c' <- insertOne d c; Ok (d, c')
      else Throw ValidationError
  | _, _ => Throw ValidationError
  end.

Definition apply (b : body) (t : doc) : doc :=
  mk (id t)
     (orElse (b_thoughtText b) (thoughtText t))
     (orElse (b_username b) (username t)).

Definition validUpdate (b : body) : bool :=
  match b_thoughtText b with Some v => valid_thoughtText v | None => true end
  && match b_username b with Some v => valid_username v | None => true end.

(** [Thought.findByIdAndUpdate(id, req.body, {new: true, runValidators: true})] *)
Definition findByIdAndUpdateBody (i : ObjectId) (b : body) (c : list doc)
  : result (option doc * list doc) :=
  if validUpdate b then Ok (findByIdAndUpdate i (apply b) c)
  else Throw ValidationError.

Definition sameUsername (v : string) (t : doc) : bool :=
  String.eqb (username t) v.

End Thought.

(* ------------------------------------------------------------------ *)
(** ** Requests, responses and the twelve route handlers               *)
(* ------------------------------------------------------------------ *)

Record Store : Type := mkStore {
  users : list User.doc;
  thoughts : list Thought.doc
}.

Definition emptyStore : Store := mkStore [] [].

(** A user after [.populate('thoughts').populate('friends')]: the
    identifiers that resolve are replaced by the documents, in order. *)
Record Populated : Type := mkPopulated {
  p_user : User.doc;
  p_thoughts : list Thought.doc;
  p_friends : list User.doc
}.

Definition resolve {D : Type} `{Document D} (c : list D) (ids : list ObjectId)
  : list D :=
  flat_map (fun i => match findById i c with Some d => [d] | None => [] end) ids.

Definition populate (s : Store) (u : User.doc) : Populated :=
  mkPopulated u (resolve (thoughts s) (User.thoughts u))
                (resolve (users s) (User.friends u)).

Inductive Json : Type :=
| JUsers (l : list Populated)
| JPopulated (p : Populated)
| JUser (u : User.doc)
| JThoughts (l : list Thought.doc)
| JThought (t : Thought.doc)
| JMessage (m : string)
| JError (e : MongoError).

Record Response : Type := res { status : N; json : Json }.

(** The error kinds of the interface, by status code. *)
Definition OK : N := 200.
Definition BadRequest : N := 400.      (* ValidationError *)
Definition NotFound : N := 404.
Definition ServerError : N := 500.     (* StoreFailure *)

(** [GET /api/users] *)
Definition getUsers (s : Store) : Response * Store :=
  (res OK (JUsers (map (populate s) (users s))), s).

(** [GET /api/users/:userId] *)
Definition getUser (userId : ObjectId) (s : Store) : Response * Store :=
  match findById userId (users s) with
  | None => (res NotFound (JMessage "User not found"), s)
  | Some user => (res OK (JPopulated (populate s user)), s)
  end.

(** [POST /api/users] *)
Definition createUser (oid : ObjectId) (body : User.body) (s : Store)
  : Response * Store :=
  catch
    (await (user, us) <- User.create oid body (users s);
     Ok (res OK (JUser user), mkStore us (thoughts s)))
    (fun err => (res BadRequest (JError err), s)).

(** [PUT /api/users/:userId] *)
Definition updateUser (userId : ObjectId) (body : User.body) (s : Store)
  : Response * Store :=
  catch
    (await (user, us) <- User.findByIdAndUpdateBody userId body (users s);
     match user with
     | None => Ok (res NotFound (JMessage "User not found"), mkStore us (thoughts s))
     | Some u => Ok (res OK (JUser u), mkStore us (thoughts s))
     end)
    (fun err => (res BadRequest (JError err), s)).

(** [DELETE /api/users/:userId] *)
Definition deleteUser (userId : ObjectId) (s : Store) : Response * Store :=
  let (user, us) := findByIdAndDelete userId (users s) in
  match user with
  | None => (res NotFound (JMessage "User not found"), mkStore us (thoughts s))
  | Some u =>
      let ts := deleteMany (Thought.sameUsername (User.username u)) (thoughts s) in
      (res OK (JMessage "User deleted"), mkStore us ts)
  end.

(** [$addToSet: {friends: x}] and [$pull: {friends: x}] *)
Definition addToSetFriends (x : ObjectId) (u : User.doc) : User.doc :=
  User.set_friends (addToSet x (User.friends u)) u.
Definition pullFriends (x : ObjectId) (u : User.doc) : User.doc :=
  User.set_friends (pull x (User.friends u)) u.

(** [$push: {thoughts: x}] and [$pull: {thoughts: x}] *)
Definition pushThoughts (x : ObjectId) (u : User.doc) : User.doc :=
  User.set_thoughts (push x (User.thoughts u)) u.
Definition pullThoughts (x : ObjectId) (u : User.doc) : User.doc :=
  User.set_thoughts (pull x (User.thoughts u)) u.

(** [POST /api/users/:userId/friends/:friendId] *)
Definition addFriend (userId friendId : ObjectId) (s : Store)
  : Response * Store :=
  let (user, us1) := findByIdAndUpdate userId (addToSetFriends friendId) (users s) in
  match user with
  | None => (res NotFound (JMessage "User not found."), mkStore us1 (thoughts s))
  | Some u =>
      let (friend, us2) := findByIdAndUpdate friendId (addToSetFriends userId) us1 in
      match friend with
      | None => (res NotFound (JMessage "Friend not found."), mkStore us2 (thoughts s))
      | Some _ => (res OK (JUser u), mkStore us2 (thoughts s))
      end
  end.

(** [DELETE /api/users/:userId/friends/:friendId] *)
Definition removeFriend (userId friendId : ObjectId) (s : Store)
  : Response * Store :=
  let (user, us1) := findByIdAndUpdate userId (pullFriends friendId) (users s) in
  match user with
  | None => (res NotFound (JMessage "User not found"), mkStore us1 (thoughts s))
  | Some u =>
      let (_, us2) := findByIdAndUpdate friendId (pullFriends userId) us1 in
      (res OK (JUser u), mkStore us2 (thoughts s))
  end.

(** [GET /api/thoughts] *)
Definition getThoughts (s : Store) : Response * Store :=
  (res OK (JThoughts (thoughts s)), s).

(** [GET /api/thoughts/:thoughtId] *)
Definition getThought (thoughtId : ObjectId) (s : Store) : Response * Store :=
  match findById thoughtId (thoughts s) with
  | None => (res NotFound (JMessage "Thought not found"), s)
  | Some thought => (res OK (JThought thought), s)
  end.

(** The filter [{username: v}] on users, cast through [userSchema]. *)
Definition byUsername (v : string) : User.doc -> bool :=
  User.sameUsername (trim v).

(** [POST /api/thoughts].  Once [Thought.create] has succeeded,
    [req.body.username] is the [username] of the created thought. *)
Definition createThought (oid : ObjectId) (body : Thought.body) (s : Store)
  : Response * Store :=
  catch
    (await (thought, ts) <- Thought.create oid body (thoughts s);
     let (_, us) := findOneAndUpdate (byUsername (Thought.username thought))
                      (pushThoughts (_id thought)) (users s) in
     Ok (res OK (JThought thought), mkStore us ts))
    (fun err => (res BadRequest (JError err), s)).

(** [PUT /api/thoughts/:thoughtId] *)
Definition updateThought (thoughtId : ObjectId) (body : Thought.body) (s : Store)
  : Response * Store :=
  catch
    (await (thought, ts) <- Thought.findByIdAndUpdateBody thoughtId body (thoughts s);
     match thought with
     | None => Ok (res NotFound (JMessage "Thought not found"), mkStore (users s) ts)
     | Some t => Ok (res OK (JThought t), mkStore (users s) ts)
     end)
    (fun err => (res BadRequest (JError err), s)).

(** [DELETE /api/thoughts/:thoughtId] *)
Definition deleteThought (thoughtId : ObjectId) (s : Store) : Response * Store :=
  let (thought, ts) := findByIdAndDelete thoughtId (thoughts s) in
  match thought with
  | None => (res NotFound (JMessage "Thought not found"), mkStore (users s) ts)
  | Some t =>
      let (_, us) := findOneAndUpdate (byUsername (Thought.username t))
                       (pullThoughts (_id t)) (users s) in
      (res OK (JMessage "Thought deleted"), mkStore us ts)
  end.

(** The requests the dispatcher hands to the handlers. *)
Inductive Request : Type :=
| GetUsers
| GetUser (userId : ObjectId)
| PostUser (oid : ObjectId) (body : User.body)
| PutUser (userId : ObjectId) (body : User.body)
| DeleteUser (userId : ObjectId)
| PostFriend (userId friendId : ObjectId)
| DeleteFriend (userId friendId : ObjectId)
| GetThoughts
| GetThought (thoughtId : ObjectId)
| PostThought (oid : ObjectId) (body : Thought.body)
| PutThought (thoughtId : ObjectId) (body : Thought.body)
| DeleteThought (thoughtId : ObjectId).

Definition handle (r : Request) (s : Store) : Response * Store :=
  match r with
  | GetUsers => getUsers s
  | GetUser i => getUser i s
  | PostUser oid b => createUser oid b s
  | PutUser i b => updateUser i b s
  | DeleteUser i => deleteUser i s
  | PostFriend a b => addFriend a b s
  | DeleteFriend a b => removeFriend a b s
  | GetThoughts => getThoughts s
  | GetThought i => getThought i s
  | PostThought oid b => createThought oid b s
  | PutThought i b => updateThought i b s
  | DeleteThought i => deleteThought i s
  end.

(** The store after serving the requests one after the other. *)
Fixpoint serve (rs : list Request) (s : Store) : Store :=
  match rs with
  | [] => s
  | r :: rs' => serve rs' (snd (handle r s))
  end.

Definition reachable (s : Store) : Prop :=
  exists rs, serve rs emptyStore = s.

Definition newUser (name mail : string) : User.body :=
  User.mkBody (Some name) (Some mail) None None.
Definition newThought (text name : string) : Thought.body :=
  Thought.mkBody (Some text) (Some name).

Local Open Scope string_scope.
Local Open Scope N_scope.

(* ------------------------------------------------------------------ *)
(** ** Specification vocabulary                                        *)
(* ------------------------------------------------------------------ *)

(** What the indexes and setters of the store maintain. *)
Definition trimmed (v : string) : Prop := trim v = v.

Record store_ok (s : Store) : Prop := mkOk {
  ok_user_ids : NoDup (map _id (users s));
  ok_thought_ids : NoDup (map _id (thoughts s));
  ok_usernames : NoDup (map User.username (users s));
  ok_emails : NoDup (map User.email (users s));
  ok_trimmed : Forall trimmed (map User.username (users s))
}.

(** The friends of the user [i], when there is one. *)
Definition friendsOf (i : ObjectId) (s : Store) : option (list ObjectId) :=
  option_map User.friends (findById i (users s)).

Definition thoughtsOf (i : ObjectId) (s : Store) : option (list ObjectId) :=
  option_map User.thoughts (findById i (users s)).

(** The users after the two writes of [addFriend]. *)
Definition befriended (a b : ObjectId) (c : list User.doc) : list User.doc :=
  updateOne (hasId b) (addToSetFriends a) (updateOne (hasId a) (addToSetFriends b) c).

Definition unfriended (a b : ObjectId) (c : list User.doc) : list User.doc :=
  updateOne (hasId b) (pullFriends a) (updateOne (hasId a) (pullFriends b) c).

(** Sample stores, built through the handlers. *)
Definition solo : Store :=
  serve [PostUser 1 (newUser "abc" "a@b.com")] emptyStore.

Definition pair : Store :=
  serve [PostUser 1 (newUser "abc" "a@b.com");
         PostUser 2 (newUser "def" "d@e.org")] emptyStore.

(** User "abc" was created with a [thoughts] array naming thought 10. *)
Definition preloaded : Store :=
  serve [PostUser 1 (User.mkBody (Some "abc") (Some "a@b.com") (Some [10]) None)]
        emptyStore.

(** User 1 ("abc") with thoughts 10 and 11; user 2 ("def") with thought 12. *)
Definition busy : Store :=
  serve [PostUser 1 (newUser "abc" "a@b.com");
         PostUser 2 (newUser "def" "d@e.org");
         PostThought 10 (newThought "hi" "abc");
         PostThought 11 (newThought "again" "abc");
         PostThought 12 (newThought "hello" "def")] emptyStore.

(** Every identifier in a [friends] array is the identifier of a user, and
    that user lists the owner of the array in return. *)
Definition friends_ok (s : Store) : Prop :=
  forall u, In u (users s) ->
  forall b, In b (User.friends u) ->
  exists v, findById b (users s) = Some v /\ In (User.id u) (User.friends v).

(** The same, by lookup. *)
Definition mutual (s : Store) : Prop :=
  forall a fa, friendsOf a s = Some fa ->
  forall b, In b fa ->
  exists fb, friendsOf b s = Some fb /\ In a fb.

(** Requests other than: a user payload with a [friends] array, the delete
    of a user that lists a friend other than itself, and [addFriend] from a
    user of the store to an identifier of no user. *)
Definition friend_safe (r : Request) (s : Store) : bool :=
  match r with
  | PostUser _ body =>
      match User.b_friends body with
      | None | Some [] => true
      | Some _ => false
      end
  | PutUser _ body =>
      match User.b_friends body with
      | None => true
      | Some _ => false
      end
  | DeleteUser i =>
      match findById i (users s) with
      | None => true
      | Some u => forallb (N.eqb i) (User.friends u)
      end
  | PostFriend a b =>
      match findById a (users s), findById b (users s) with
      | Some _, None => false
      | _, _ => true
      end
  | _ => true
  end.

Fixpoint friend_safe_run (rs : list Request) (s : Store) : bool :=
  match rs with
  | [] => true
  | r :: rs' => friend_safe r s && friend_safe_run rs' (snd (handle r s))
  end.

(** Two users become friends, then the first one is deleted. *)
Definition dangling : Store :=
  serve [PostUser 1 (newUser "abc" "a@b.com");
         PostUser 2 (newUser "def" "d@e.org");
         PostFriend 1 2;
         DeleteUser 1] emptyStore.

(* ------------------------------------------------------------------ *)
(** ** Facts about strings                                             *)
(* ------------------------------------------------------------------ *)

Lemma trimEnd_idem (s : string) : trimEnd (trimEnd s) = trimEnd s.
Proof.
  induction s as [|c r IH]; simpl; [reflexivity|].
  destruct (trimEnd r) as [|c' r'] eqn:E.
  - destruct (is_space c) eqn:W; simpl; [reflexivity|].
    rewrite W. reflexivity.
  - change (trimEnd (String c (String c' r'))) with
      (match trimEnd (String c' r') with
       | EmptyString => if is_space c then EmptyString else String c EmptyString
       | String a b => String c (String a b)
       end).
    rewrite IH. reflexivity.
Qed.

Lemma trimStart_head (s : string) :
  trimStart s = EmptyString \/
  exists c r, trimStart s = String c r /\ is_space c = false.
Proof.
  induction s as [|c r IH]; simpl; [left; reflexivity|].
  destruct (is_space c) eqn:W; [exact IH|].
  right. exists c, r. split; [reflexivity | exact W].
Qed.

Lemma trimEnd_head (c : ascii) (r : string) :
  is_space c = false -> exists x, trimEnd (String c r) = String c x.
Proof.
  intros W. simpl. destruct (trimEnd r).
  - rewrite W. eexists; reflexivity.
  - eexists; reflexivity.
Qed.

Lemma trim_idem (s : string) : trim (trim s) = trim s.
Proof.
  unfold trim. destruct (trimStart_head s) as [E | (c & r & E & W)]; rewrite E.
  - reflexivity.
  - destruct (trimEnd_head c r W) as [x Hx].
    rewrite Hx. simpl trimStart. rewrite W. rewrite <- Hx. apply trimEnd_idem.
Qed.

Lemma String_eqb_true (a b : string) : String.eqb a b = true <-> a = b.
Proof. apply String.eqb_eq. Qed.

Lemma String_eqb_false (a b : string) : String.eqb a b = false <-> a <> b.
Proof. apply String.eqb_neq. Qed.

(* ------------------------------------------------------------------ *)
(** ** Facts about collections                                         *)
(* ------------------------------------------------------------------ *)

Section CollectionFacts.
Context {D : Type} `{Document D}.
Implicit Types (c : list D) (p : D -> bool) (f : D -> D) (i x : ObjectId).

Lemma hasId_true i (d : D) : hasId i d = true <-> _id d = i.
Proof. unfold hasId. apply N.eqb_eq. Qed.

Lemma hasId_false i (d : D) : hasId i d = false <-> _id d <> i.
Proof. unfold hasId. apply N.eqb_neq. Qed.

Lemma updateOne_none p f c : findOne p c = None -> updateOne p f c = c.
Proof.
  unfold findOne. induction c as [|d r IH]; simpl; [reflexivity|].
  destruct (p d); [discriminate|]. intros E. now rewrite IH.
Qed.

Lemma deleteOne_none p c : findOne p c = None -> deleteOne p c = c.
Proof.
  unfold findOne. induction c as [|d r IH]; simpl; [reflexivity|].
  destruct (p d); [discriminate|]. intros E. now rewrite IH.
Qed.

Lemma findById_In i c d : findById i c = Some d -> In d c /\ _id d = i.
Proof.
  unfold findById, findOne. intros E. apply find_some in E.
  destruct E as [HI E]. split; [exact HI | now apply hasId_true].
Qed.

Lemma findById_None i c : findById i c = None <-> ~ In i (map _id c).
Proof.
  unfold findById, findOne. induction c as [|d r IH]; simpl.
  - split; [intros _ [] | reflexivity].
  - destruct (hasId i d) eqn:E.
    + apply hasId_true in E. split; [discriminate | intros N; exfalso; auto].
    + apply hasId_false in E. rewrite IH. tauto.
Qed.

Lemma existsb_hasId i c : existsb (hasId i) c = false <-> findById i c = None.
Proof.
  unfold findById, findOne. induction c as [|d r IH]; simpl; [tauto|].
  destruct (hasId i d); simpl; [split; discriminate | exact IH].
Qed.

Lemma In_findById c d :
  NoDup (map _id c) -> In d c -> findById (_id d) c = Some d.
Proof.
  unfold findById, findOne. induction c as [|e r IH]; simpl; [tauto|].
  intros ND [-> | HI].
  - unfold hasId. now rewrite N.eqb_refl.
  - inversion ND as [|? ? N1 N2]; subst.
    destruct (hasId (_id d) e) eqn:E; [|auto].
    apply hasId_true in E. exfalso. apply N1. rewrite E. now apply in_map.
Qed.

(** Lookup after an update by identifier. *)
Lemma findById_updateOne x i f c :
  (forall d, _id (f d) = _id d) ->
  findById x (updateOne (hasId i) f c)
  = if N.eqb x i then option_map f (findById i c) else findById x c.
Proof.
  intros Hf. unfold findById, findOne.
  induction c as [|d r IH]; simpl.
  - now destruct (N.eqb x i).
  - destruct (hasId i d) eqn:E; simpl.
    + unfold hasId at 1. rewrite Hf. apply hasId_true in E.
      destruct (N.eqb x i) eqn:X.
      * apply N.eqb_eq in X. subst x. rewrite E, N.eqb_refl. reflexivity.
      * unfold hasId at 2. rewrite E, N.eqb_sym, X. reflexivity.
    + rewrite IH. destruct (N.eqb x i) eqn:X; [|reflexivity].
      apply N.eqb_eq in X. subst x. now rewrite E.
Qed.

(** An update that keeps a projection keeps it at every position. *)
Lemma map_updateOne {B : Type} (g : D -> B) p f c :
  (forall d, g (f d) = g d) -> map g (updateOne p f c) = map g c.
Proof.
  intros Hf. induction c as [|d r IH]; simpl; [reflexivity|].
  destruct (p d); simpl; [now rewrite Hf | now rewrite IH].
Qed.

(** Lookup after an update by any filter, seen through a projection
    the update keeps. *)
Lemma findById_updateOne_proj {B : Type} (g : D -> B) x p f c :
  (forall d, _id (f d) = _id d) -> (forall d, g (f d) = g d) ->
  option_map g (findById x (updateOne p f c)) = option_map g (findById x c).
Proof.
  intros Hi Hg. unfold findById, findOne.
  induction c as [|d r IH]; simpl; [reflexivity|].
  destruct (p d); simpl.
  - unfold hasId at 1 3. rewrite Hi. destruct (N.eqb (_id d) x); simpl;
      [now rewrite Hg | reflexivity].
  - destruct (hasId x d); [reflexivity | exact IH].
Qed.

Lemma In_deleteOne p c d : In d (deleteOne p c) -> In d c.
Proof.
  induction c as [|e r IH]; simpl; [tauto|].
  destruct (p e); simpl; [auto | intros [E | HI]; auto].
Qed.

Lemma NoDup_map_deleteOne {B : Type} (g : D -> B) p c :
  NoDup (map g c) -> NoDup (map g (deleteOne p c)).
Proof.
  induction c as [|e r IH]; simpl; [auto|].
  intros ND. inversion ND as [|? ? N1 N2]; subst.
  destruct (p e); simpl; [exact N2|].
  constructor; [|auto].
  intros HI. apply N1. apply in_map_iff in HI. destruct HI as (d & E & HI).
  apply in_map_iff. exists d. split; [exact E | eapply In_deleteOne; eauto].
Qed.

Lemma NoDup_map_filter {B : Type} (g : D -> B) p c :
  NoDup (map g c) -> NoDup (map g (filter p c)).
Proof.
  induction c as [|e r IH]; simpl; [auto|].
  intros ND. inversion ND as [|? ? N1 N2]; subst.
  destruct (p e); simpl; [|auto].
  constructor; [|auto].
  intros HI. apply N1. apply in_map_iff in HI. destruct HI as (d & E & HI).
  apply in_map_iff. exists d. split; [exact E|].
  apply filter_In in HI. tauto.
Qed.

Lemma NoDup_map_snoc {B : Type} (g : D -> B) c d :
  NoDup (map g c) -> ~ In (g d) (map g c) -> NoDup (map g (c ++ [d])).
Proof.
  intros ND NI. rewrite map_app. simpl.
  apply NoDup_app; [exact ND | repeat constructor; intros [] | ].
  intros b Hb [E | []]. subst b. auto.
Qed.

Lemma In_updateOne p f c y :
  In y (updateOne p f c) ->
  (exists u, findOne p c = Some u /\ y = f u) \/ In y (deleteOne p c).
Proof.
  unfold findOne. induction c as [|e r IH]; simpl; [tauto|].
  destruct (p e); simpl.
  - intros [<- | HI]; [left; eauto | right; exact HI].
  - intros [<- | HI]; [right; left; reflexivity|].
    destruct (IH HI) as [L | R]; [left; exact L | right; right; exact R].
Qed.

(** Updating the first match into a document whose projection is not
    used by the others. *)
Lemma NoDup_map_updateOne {B : Type} (g : D -> B) p f c u :
  NoDup (map g c) -> findOne p c = Some u ->
  ~ In (g (f u)) (map g (deleteOne p c)) ->
  NoDup (map g (updateOne p f c)).
Proof.
  unfold findOne. induction c as [|e r IH]; simpl; [auto|].
  intros ND F NI. inversion ND as [|? ? N1 N2]; subst.
  destruct (p e); simpl in *.
  - injection F as ->. constructor; auto.
  - constructor; [|apply IH; auto].
    intros HI. apply in_map_iff in HI. destruct HI as (y & E & HI).
    apply In_updateOne in HI. destruct HI as [(u' & F' & ->) | HI].
    + unfold findOne in F'. rewrite F in F'. injection F' as <-.
      apply NI. left. congruence.
    + apply N1. rewrite <- E. apply in_map. eapply In_deleteOne; eauto.
Qed.

Lemma Forall_map_updateOne {B : Type} (P : B -> Prop) (g : D -> B) p f c :
  (forall d, P (g d) -> P (g (f d))) ->
  Forall P (map g c) -> Forall P (map g (updateOne p f c)).
Proof.
  intros Hf HF. induction c as [|e r IH]; simpl in *; [constructor|].
  inversion HF; subst. destruct (p e); simpl; constructor; auto.
Qed.

Lemma findById_deleteOne x i c :
  NoDup (map _id c) ->
  findById x (deleteOne (hasId i) c)
  = if N.eqb x i then None else findById x c.
Proof.
  intros ND. unfold findById, findOne.
  induction c as [|d r IH]; simpl.
  - now destruct (N.eqb x i).
  - inversion ND as [|? ? N1 N2]; subst.
    destruct (hasId i d) eqn:E.
    + apply hasId_true in E. destruct (N.eqb x i) eqn:X.
      * apply N.eqb_eq in X. subst x. apply findById_None. congruence.
      * unfold hasId. rewrite E, N.eqb_sym, X. reflexivity.
    + simpl. rewrite (IH N2). destruct (N.eqb x i) eqn:X; [|reflexivity].
      apply N.eqb_eq in X. subst x. now rewrite E.
Qed.

Lemma findById_snoc x c d :
  findById x (c ++ [d])
  = match findById x c with
    | Some y => Some y
    | None => if hasId x d then Some d else None
    end.
Proof.
  unfold findById, findOne. induction c as [|e r IH]; simpl; [reflexivity|].
  destruct (hasId x e); [reflexivity | exact IH].
Qed.

End CollectionFacts.

(* ------------------------------------------------------------------ *)
(** ** The invariant the indexes and setters of the store maintain     *)
(* ------------------------------------------------------------------ *)

Lemma store_ok_empty : store_ok emptyStore.
Proof. split; simpl; constructor. Qed.

Lemma existsb_false_notin {A B : Type} (g : A -> B) (q : B -> A -> bool)
      (v : B) (c : list A) :
  (forall a, q v a = false -> g a <> v) ->
  existsb (q v) c = false -> ~ In v (map g c).
Proof.
  intros Hq E HI. apply in_map_iff in HI. destruct HI as (a & Ea & HI).
  assert (X : q v a = false).
  { destruct (q v a) eqn:Q; [|reflexivity].
    rewrite <- E. symmetry. apply existsb_exists. eauto. }
  exact (Hq a X Ea).
Qed.

Lemma clashes_false (d : User.doc) (c : list User.doc) :
  User.clashes d c = false ->
  ~ In (User.username d) (map User.username c) /\
  ~ In (User.email d) (map User.email c).
Proof.
  unfold User.clashes. intros E. apply orb_false_elim in E. destruct E as [E1 E2].
  split.
  - eapply existsb_false_notin; [|exact E1].
    intros a. unfold User.sameUsername. apply String_eqb_false.
  - eapply existsb_false_notin; [|exact E2].
    intros a. unfold User.sameEmail. apply String_eqb_false.
Qed.

Lemma clashes_true (d u : User.doc) (c : list User.doc) :
  In u c ->
  User.username u = User.username d \/ User.email u = User.email d ->
  User.clashes d c = true.
Proof.
  intros HI [E | E]; unfold User.clashes; apply orb_true_iff; [left | right];
    apply existsb_exists; exists u; (split; [exact HI|]).
  - unfold User.sameUsername. now apply String_eqb_true.
  - unfold User.sameEmail. now apply String_eqb_true.
Qed.

(** An update of one user that keeps the indexed paths. *)
Lemma store_ok_update_users (s : Store) (p : User.doc -> bool)
      (f : User.doc -> User.doc) (ts : list Thought.doc) :
  (forall u, User.id (f u) = User.id u) ->
  (forall u, User.username (f u) = User.username u) ->
  (forall u, User.email (f u) = User.email u) ->
  store_ok s -> NoDup (map _id ts) ->
  store_ok (mkStore (updateOne p f (users s)) ts).
Proof.
  intros Hi Hn He [O1 O2 O3 O4 O5] ND. split; simpl; auto.
  - rewrite map_updateOne; [exact O1 | exact Hi].
  - rewrite map_updateOne; [exact O3 | exact Hn].
  - rewrite map_updateOne; [exact O4 | exact He].
  - rewrite map_updateOne; [exact O5 | exact Hn].
Qed.

Lemma createUser_ok oid body s : store_ok s -> store_ok (snd (createUser oid body s)).
Proof.
  intros O. unfold createUser, User.create.
  destruct (User.b_username body) as [name|]; simpl; [|exact O].
  destruct (User.b_email body) as [mail|]; simpl; [|exact O].
  destruct (User.valid_username (trim name) && User.valid_email mail);
    simpl; [|exact O].
  destruct (User.clashes _ (users s)) eqn:C; simpl; [exact O|].
  unfold insertOne.
  destruct (existsb _ (users s)) eqn:X; simpl; [exact O|].
  apply clashes_false in C. destruct C as [C1 C2]. simpl in C1, C2.
  apply existsb_hasId, findById_None in X.
  destruct O as [O1 O2 O3 O4 O5]. split; simpl; auto.
  - apply NoDup_map_snoc; auto.
  - apply NoDup_map_snoc; auto.
  - apply NoDup_map_snoc; auto.
  - rewrite map_app. apply Forall_app. split; [exact O5|].
    repeat constructor. simpl. apply trim_idem.
Qed.

Lemma updateUser_ok i body s : store_ok s -> store_ok (snd (updateUser i body s)).
Proof.
  intros O. unfold updateUser, User.findByIdAndUpdateBody.
  destruct (User.validUpdate (User.cast body)); simpl; [|exact O].
  destruct (findById i (users s)) as [u|] eqn:F; simpl; [|destruct s; exact O].
  destruct (User.clashes _ _) eqn:C; simpl; [exact O|].
  apply clashes_false in C. destruct C as [C1 C2].
  unfold findByIdAndUpdate, findOneAndUpdate.
  fold (findById i (users s)). rewrite F. simpl.
  destruct O as [O1 O2 O3 O4 O5]. split; simpl; auto.
  - rewrite map_updateOne; [exact O1 | reflexivity].
  - eapply NoDup_map_updateOne; eauto.
  - eapply NoDup_map_updateOne; eauto.
  - apply Forall_map_updateOne; [|exact O5].
    intros d Hd. unfold User.apply, User.cast. simpl.
    destruct (User.b_username body); simpl; [apply trim_idem | exact Hd].
Qed.

Lemma deleteUser_ok i s : store_ok s -> store_ok (snd (deleteUser i s)).
Proof.
  intros [O1 O2 O3 O4 O5]. unfold deleteUser, findByIdAndDelete, findOneAndDelete.
  assert (U : forall ts, NoDup (map _id ts) ->
            store_ok (mkStore (deleteOne (hasId i) (users s)) ts)).
  { intros ts ND. split; simpl; auto using NoDup_map_deleteOne.
    rewrite Forall_forall in *. intros v Hv. apply O5.
    apply in_map_iff in Hv. destruct Hv as (d & E & HI).
    apply in_map_iff. exists d. split; [exact E | eapply In_deleteOne; eauto]. }
  destruct (findOne (hasId i) (users s)); simpl; apply U; auto.
  unfold deleteMany. now apply NoDup_map_filter.
Qed.

Lemma addFriend_ok a b s : store_ok s -> store_ok (snd (addFriend a b s)).
Proof.
  intros O. unfold addFriend, findByIdAndUpdate, findOneAndUpdate.
  pose proof (ok_thought_ids s O) as T.
  assert (O1 : store_ok (mkStore (updateOne (hasId a) (addToSetFriends b) (users s))
                                 (thoughts s)))
    by (apply store_ok_update_users; auto).
  destruct (findOne (hasId a) (users s)); simpl; [|exact O1].
  assert (O2 := store_ok_update_users _ (hasId b) (addToSetFriends a) (thoughts s)
                  (fun _ => eq_refl) (fun _ => eq_refl) (fun _ => eq_refl) O1 T).
  simpl in O2. destruct (findOne (hasId b) _); simpl; exact O2.
Qed.

Lemma removeFriend_ok a b s : store_ok s -> store_ok (snd (removeFriend a b s)).
Proof.
  intros O. unfold removeFriend, findByIdAndUpdate, findOneAndUpdate.
  pose proof (ok_thought_ids s O) as T.
  assert (O1 : store_ok (mkStore (updateOne (hasId a) (pullFriends b) (users s))
                                 (thoughts s)))
    by (apply store_ok_update_users; auto).
  destruct (findOne (hasId a) (users s)); simpl; [|exact O1].
  exact (store_ok_update_users _ (hasId b) (pullFriends a) (thoughts s)
           (fun _ => eq_refl) (fun _ => eq_refl) (fun _ => eq_refl) O1 T).
Qed.

Lemma createThought_ok oid body s :
  store_ok s -> store_ok (snd (createThought oid body s)).
Proof.
  intros O. unfold createThought, Thought.create.
  destruct (Thought.b_thoughtText body) as [text|]; simpl; [|exact O].
  destruct (Thought.b_username body) as [name|]; simpl; [|exact O].
  destruct (Thought.valid_thoughtText text && Thought.valid_username name);
    simpl; [|exact O].
  unfold insertOne. destruct (existsb _ (thoughts s)) eqn:X; simpl; [exact O|].
  apply existsb_hasId, findById_None in X.
  apply store_ok_update_users; auto.
  apply NoDup_map_snoc; [exact (ok_thought_ids s O) | exact X].
Qed.

Lemma updateThought_ok i body s :
  store_ok s -> store_ok (snd (updateThought i body s)).
Proof.
  intros O. unfold updateThought, Thought.findByIdAndUpdateBody.
  destruct (Thought.validUpdate body); simpl; [|exact O].
  assert (O' : store_ok (mkStore (users s)
                 (updateOne (hasId i) (Thought.apply body) (thoughts s)))).
  { destruct O as [O1 O2 O3 O4 O5]. split; simpl; auto.
    rewrite map_updateOne; [exact O2 | reflexivity]. }
  destruct (findOne (hasId i) (thoughts s)); simpl; exact O'.
Qed.

Lemma deleteThought_ok i s : store_ok s -> store_ok (snd (deleteThought i s)).
Proof.
  intros O. unfold deleteThought, findByIdAndDelete, findOneAndDelete.
  pose proof (NoDup_map_deleteOne _id (hasId i) (thoughts s) (ok_thought_ids s O)) as T.
  destruct (findOne (hasId i) (thoughts s)); simpl.
  - apply store_ok_update_users; auto.
  - destruct O as [O1 O2 O3 O4 O5]. split; simpl; auto.
Qed.

(** Every handler maintains the invariant. *)
Lemma handle_ok (r : Request) (s : Store) :
  store_ok s -> store_ok (snd (handle r s)).
Proof.
  destruct r; simpl;
    auto using createUser_ok, updateUser_ok, deleteUser_ok, addFriend_ok,
      removeFriend_ok, createThought_ok, updateThought_ok, deleteThought_ok.
  - unfold getUser. destruct (findById userId (users s)); auto.
  - unfold getThought. destruct (findById thoughtId (thoughts s)); auto.
Qed.

Lemma serve_ok (rs : list Request) (s : Store) :
  store_ok s -> store_ok (serve rs s).
Proof.
  revert s. induction rs as [|r rs IH]; simpl; intros s O; [exact O|].
  apply IH. now apply handle_ok.
Qed.

Lemma reachable_ok (s : Store) : reachable s -> store_ok s.
Proof. intros [rs <-]. apply serve_ok, store_ok_empty. Qed.

(* ------------------------------------------------------------------ *)
(** ** Array operators and the two friendship handlers                 *)
(* ------------------------------------------------------------------ *)

Lemma existsb_eqb_In (x : ObjectId) (l : list ObjectId) :
  existsb (N.eqb x) l = true <-> In x l.
Proof.
  rewrite existsb_exists. split.
  - intros (y & HI & E). apply N.eqb_eq in E. now subst.
  - intros HI. exists x. split; [exact HI | apply N.eqb_refl].
Qed.

Lemma In_addToSet (x y : ObjectId) (l : list ObjectId) :
  In y (addToSet x l) <-> In y l \/ y = x.
Proof.
  unfold addToSet. destruct (existsb (N.eqb x) l) eqn:E.
  - apply existsb_eqb_In in E. split; [tauto | intros [H | ->]; auto].
  - rewrite in_app_iff. simpl. intuition auto.
Qed.

Lemma addToSet_In (x : ObjectId) (l : list ObjectId) :
  In x l -> addToSet x l = l.
Proof. intros HI. unfold addToSet. apply existsb_eqb_In in HI. now rewrite HI. Qed.

Lemma In_pull (x y : ObjectId) (l : list ObjectId) :
  In y (pull x l) <-> In y l /\ y <> x.
Proof.
  unfold pull. rewrite filter_In, negb_true_iff, N.eqb_neq. tauto.
Qed.


Lemma updateOne_fix (i : ObjectId) (f : User.doc -> User.doc) (c : list User.doc) :
  (forall d, findById i c = Some d -> f d = d) -> updateOne (hasId i) f c = c.
Proof.
  unfold findById, findOne. induction c as [|d r IH]; simpl; [reflexivity|].
  destruct (hasId i d); intros Hf; [now rewrite Hf | now rewrite IH].
Qed.

Lemma addToSetFriends_fix (x : ObjectId) (d : User.doc) :
  In x (User.friends d) -> addToSetFriends x d = d.
Proof.
  intros HI. unfold addToSetFriends, User.set_friends.
  rewrite addToSet_In by exact HI. now destruct d.
Qed.


Lemma addFriend_missing a b s :
  findById a (users s) = None ->
  addFriend a b s = (res NotFound (JMessage "User not found."), s).
Proof.
  intros F. unfold addFriend, findByIdAndUpdate, findOneAndUpdate.
  fold (findById a (users s)). rewrite F. simpl.
  rewrite updateOne_none by exact F. now destruct s.
Qed.

Lemma addFriend_found a b s ua :
  findById a (users s) = Some ua ->
  addFriend a b s
  = match (if N.eqb b a then Some (addToSetFriends b ua) else findById b (users s)) with
    | None => (res NotFound (JMessage "Friend not found."),
               mkStore (befriended a b (users s)) (thoughts s))
    | Some _ => (res OK (JUser (addToSetFriends b ua)),
                 mkStore (befriended a b (users s)) (thoughts s))
    end.
Proof.
  intros F. unfold addFriend, findByIdAndUpdate, findOneAndUpdate.
  fold (findById a (users s)). rewrite F. simpl.
  fold (findById b (updateOne (hasId a) (addToSetFriends b) (users s))).
  rewrite findById_updateOne by reflexivity. rewrite F. simpl.
  destruct (N.eqb b a); [reflexivity|].
  now destruct (findById b (users s)).
Qed.

Lemma removeFriend_missing a b s :
  findById a (users s) = None ->
  removeFriend a b s = (res NotFound (JMessage "User not found"), s).
Proof.
  intros F. unfold removeFriend, findByIdAndUpdate, findOneAndUpdate.
  fold (findById a (users s)). rewrite F. simpl.
  rewrite updateOne_none by exact F. now destruct s.
Qed.

Lemma removeFriend_found a b s ua :
  findById a (users s) = Some ua ->
  removeFriend a b s
  = (res OK (JUser (pullFriends b ua)),
     mkStore (unfriended a b (users s)) (thoughts s)).
Proof.
  intros F. unfold removeFriend, findByIdAndUpdate, findOneAndUpdate.
  fold (findById a (users s)). rewrite F. reflexivity.
Qed.

(** Lookup after the two writes. *)
Lemma findById_befriended x a b c :
  findById x (befriended a b c)
  = option_map (fun u => if N.eqb x b then addToSetFriends a u else u)
      (option_map (fun u => if N.eqb x a then addToSetFriends b u else u)
         (findById x c)).
Proof.
  unfold befriended. rewrite !findById_updateOne by reflexivity.
  destruct (N.eqb x b) eqn:B; destruct (N.eqb x a) eqn:A;
    try apply N.eqb_eq in B; try apply N.eqb_eq in A; subst;
    rewrite ?N.eqb_refl, ?A, ?B;
    destruct (findById _ c); reflexivity.
Qed.

Lemma findById_unfriended x a b c :
  findById x (unfriended a b c)
  = option_map (fun u => if N.eqb x b then pullFriends a u else u)
      (option_map (fun u => if N.eqb x a then pullFriends b u else u)
         (findById x c)).
Proof.
  unfold unfriended. rewrite !findById_updateOne by reflexivity.
  destruct (N.eqb x b) eqn:B; destruct (N.eqb x a) eqn:A;
    try apply N.eqb_eq in B; try apply N.eqb_eq in A; subst;
    rewrite ?N.eqb_refl, ?A, ?B;
    destruct (findById _ c); reflexivity.
Qed.

Lemma befriended_idem (a b : ObjectId) (c : list User.doc) :
  befriended a b (befriended a b c) = befriended a b c.
Proof.
  unfold befriended at 1.
  rewrite (updateOne_fix a (addToSetFriends b) (befriended a b c)).
  - apply updateOne_fix. intros d. rewrite findById_befriended, N.eqb_refl.
    destruct (findById b c) as [u|]; simpl; [|discriminate].
    intros E. injection E as <-. apply addToSetFriends_fix.
    simpl. apply In_addToSet. now right.
  - intros d. rewrite findById_befriended, N.eqb_refl.
    destruct (findById a c) as [u|]; simpl; [|discriminate].
    intros E. injection E as <-. apply addToSetFriends_fix.
    destruct (N.eqb a b) eqn:AB; simpl.
    + apply N.eqb_eq in AB. subst b. apply In_addToSet. now right.
    + apply In_addToSet. now right.
Qed.

(* ------------------------------------------------------------------ *)
(** ** Friendship                                                      *)
(* ------------------------------------------------------------------ *)

(** C1 (friend symmetry).  For two distinct users [a] and [b] of the
    store, [addFriend a b] answers 200 and afterwards [b] is among the
    friends of [a] and [a] among the friends of [b]; [removeFriend a b]
    answers 200 and afterwards neither lists the other. *)
Theorem friend_symmetry (a b : ObjectId) (s : Store) (ua ub : User.doc) :
  a <> b ->
  findById a (users s) = Some ua ->
  findById b (users s) = Some ub ->
  (status (fst (addFriend a b s)) = OK /\
   exists fa fb,
     friendsOf a (snd (addFriend a b s)) = Some fa /\ In b fa /\
     friendsOf b (snd (addFriend a b s)) = Some fb /\ In a fb) /\
  (status (fst (removeFriend a b s)) = OK /\
   exists fa fb,
     friendsOf a (snd (removeFriend a b s)) = Some fa /\ ~ In b fa /\
     friendsOf b (snd (removeFriend a b s)) = Some fb /\ ~ In a fb).
Proof.
  intros AB Fa Fb.
  assert (E1 : N.eqb a b = false) by now apply N.eqb_neq.
  assert (E2 : N.eqb b a = false) by (apply N.eqb_neq; congruence).
  split.
  - rewrite (addFriend_found a b s ua Fa), E2, Fb. simpl. split; [reflexivity|].
    unfold friendsOf. simpl. rewrite !findById_befriended, Fa, Fb. simpl.
    rewrite !N.eqb_refl, E1, E2. simpl.
    do 2 eexists. repeat split; apply In_addToSet; now right.
  - rewrite (removeFriend_found a b s ua Fa). simpl. split; [reflexivity|].
    unfold friendsOf. simpl. rewrite !findById_unfriended, Fa, Fb. simpl.
    rewrite !N.eqb_refl, E1, E2. simpl.
    do 2 eexists. repeat split; rewrite In_pull; tauto.
Qed.

Lemma friend_symmetry_witness :
  (1 <> 2 /\
   findById 1 (users pair) = Some (User.mk 1 "abc" "a@b.com" [] []) /\
   findById 2 (users pair) = Some (User.mk 2 "def" "d@e.org" [] [])) /\
  (status (fst (addFriend 1 2 pair)) = OK /\
   exists fa fb,
     friendsOf 1 (snd (addFriend 1 2 pair)) = Some fa /\ In 2 fa /\
     friendsOf 2 (snd (addFriend 1 2 pair)) = Some fb /\ In 1 fb) /\
  (status (fst (removeFriend 1 2 pair)) = OK /\
   exists fa fb,
     friendsOf 1 (snd (removeFriend 1 2 pair)) = Some fa /\ ~ In 2 fa /\
     friendsOf 2 (snd (removeFriend 1 2 pair)) = Some fb /\ ~ In 1 fb).
Proof.
  split.
  - split; [discriminate | split; reflexivity].
  - apply (friend_symmetry 1 2 pair
             (User.mk 1 "abc" "a@b.com" [] []) (User.mk 2 "def" "d@e.org" [] []));
      [discriminate | reflexivity | reflexivity].
Defined.

(** C10 (self-friendship).  For a user [a] of the store, [addFriend a a]
    answers 200 and afterwards [a] is among its own friends. *)
Theorem addFriend_self (a : ObjectId) (s : Store) (ua : User.doc) :
  findById a (users s) = Some ua ->
  status (fst (addFriend a a s)) = OK /\
  exists fa, friendsOf a (snd (addFriend a a s)) = Some fa /\ In a fa.
Proof.
  intros Fa. rewrite (addFriend_found a a s ua Fa), N.eqb_refl. simpl.
  split; [reflexivity|].
  unfold friendsOf. simpl. rewrite findById_befriended, Fa, N.eqb_refl. simpl.
  eexists. split; [reflexivity|]. apply In_addToSet. now right.
Qed.

Lemma addFriend_self_witness :
  findById 1 (users solo) = Some (User.mk 1 "abc" "a@b.com" [] []) /\
  status (fst (addFriend 1 1 solo)) = OK /\
  exists fa, friendsOf 1 (snd (addFriend 1 1 solo)) = Some fa /\ In 1 fa.
Proof.
  split; [reflexivity|].
  apply (addFriend_self 1 solo (User.mk 1 "abc" "a@b.com" [] [])). reflexivity.
Defined.

(** C8 (idempotent friendship).  Serving [addFriend a b] a second time
    leaves the store as the first call left it. *)
Theorem addFriend_idempotent (a b : ObjectId) (s : Store) :
  snd (addFriend a b (snd (addFriend a b s))) = snd (addFriend a b s).
Proof.
  destruct (findById a (users s)) as [ua|] eqn:Fa.
  - assert (E : snd (addFriend a b s)
                = mkStore (befriended a b (users s)) (thoughts s)).
    { rewrite (addFriend_found a b s ua Fa).
      now destruct (if N.eqb b a then _ else _). }
    rewrite E.
    destruct (findById a (befriended a b (users s))) as [ua'|] eqn:Fa'.
    + rewrite (addFriend_found a b (mkStore (befriended a b (users s)) (thoughts s))
                 ua' Fa'). simpl.
      rewrite befriended_idem. now destruct (if N.eqb b a then _ else _).
    + rewrite findById_befriended, Fa in Fa'. discriminate.
  - rewrite (addFriend_missing a b s Fa). simpl.
    now rewrite (addFriend_missing a b s Fa).
Qed.




(* ------------------------------------------------------------------ *)
(** ** Thoughts and their authors                                      *)
(* ------------------------------------------------------------------ *)

Lemma findById_filter {D : Type} `{Document D} (x : ObjectId) (q : D -> bool)
      (c : list D) :
  NoDup (map _id c) ->
  findById x (filter q c)
  = match findById x c with
    | Some d => if q d then Some d else None
    | None => None
    end.
Proof.
  unfold findById, findOne. induction c as [|e r IH]; simpl; [reflexivity|].
  intros ND. inversion ND as [|? ? N1 N2]; subst.
  destruct (hasId x e) eqn:E.
  - destruct (q e); simpl; [now rewrite E|].
    rewrite (IH N2). apply hasId_true in E. subst x.
    apply findById_None in N1. unfold findById, findOne in N1. now rewrite N1.
  - destruct (q e); simpl; [rewrite E|]; auto.
Qed.

(** C4 (cascade on user delete).  Deleting a user [u] of the store answers
    200; afterwards no thought of the store carries the username of [u], and
    [getThought] on the identifier of a thought that carried it answers 404.
    ([store_ok] holds in every reachable store: [reachable_ok].) *)
Theorem deleteUser_cascade (i : ObjectId) (s : Store) (u : User.doc) :
  store_ok s ->
  findById i (users s) = Some u ->
  status (fst (deleteUser i s)) = OK /\
  findById i (users (snd (deleteUser i s))) = None /\
  (forall t, In t (thoughts (snd (deleteUser i s))) ->
             Thought.username t <> User.username u) /\
  (forall tid t, findById tid (thoughts s) = Some t ->
                 Thought.username t = User.username u ->
                 status (fst (getThought tid (snd (deleteUser i s)))) = NotFound).
Proof.
  intros O F. unfold deleteUser, findByIdAndDelete, findOneAndDelete.
  fold (findById i (users s)). rewrite F. simpl.
  split; [reflexivity|]. split; [|split].
  - rewrite findById_deleteOne by exact (ok_user_ids s O).
    now rewrite N.eqb_refl.
  - intros t HI. unfold deleteMany in HI. apply filter_In in HI.
    destruct HI as [_ HI]. apply negb_true_iff in HI.
    unfold Thought.sameUsername in HI. now apply String_eqb_false in HI.
  - intros tid t Ft E. unfold getThought, deleteMany. simpl.
    rewrite findById_filter by exact (ok_thought_ids s O). rewrite Ft.
    unfold Thought.sameUsername. rewrite E, String.eqb_refl. reflexivity.
Qed.

Lemma store_ok_busy : store_ok busy.
Proof. apply serve_ok, store_ok_empty. Qed.

Lemma deleteUser_cascade_witness :
  (store_ok busy /\
   findById 1 (users busy) = Some (User.mk 1 "abc" "a@b.com" [10; 11] [])) /\
  status (fst (deleteUser 1 busy)) = OK /\
  findById 1 (users (snd (deleteUser 1 busy))) = None /\
  (forall t, In t (thoughts (snd (deleteUser 1 busy))) ->
             Thought.username t <> "abc") /\
  (forall tid t, findById tid (thoughts busy) = Some t ->
                 Thought.username t = "abc" ->
                 status (fst (getThought tid (snd (deleteUser 1 busy)))) = NotFound).
Proof.
  split; [split; [exact store_ok_busy | reflexivity]|].
  apply (deleteUser_cascade 1 busy (User.mk 1 "abc" "a@b.com" [10; 11] []));
    [exact store_ok_busy | reflexivity].
Defined.

(** C9 (thought update touches no user).  Whatever the payload, also one
    that changes [username], [updateThought] leaves the users collection as
    it was, adds and removes no thought, and changes no thought with
    another identifier. *)
Theorem updateThought_frame (i : ObjectId) (body : Thought.body) (s : Store) :
  users (snd (updateThought i body s)) = users s /\
  map _id (thoughts (snd (updateThought i body s))) = map _id (thoughts s) /\
  forall x, x <> i ->
    findById x (thoughts (snd (updateThought i body s))) = findById x (thoughts s).
Proof.
  unfold updateThought, Thought.findByIdAndUpdateBody.
  destruct (Thought.validUpdate body); simpl; [|auto].
  unfold findByIdAndUpdate, findOneAndUpdate. simpl.
  destruct (findOne (hasId i) (thoughts s)); simpl;
    (split; [reflexivity|]; split;
     [apply map_updateOne; reflexivity
     | intros x Hx; rewrite findById_updateOne by reflexivity;
       apply N.eqb_neq in Hx; now rewrite Hx]).
Qed.

(* ------------------------------------------------------------------ *)
(** ** Error kinds                                                     *)
(* ------------------------------------------------------------------ *)




(* ------------------------------------------------------------------ *)
(** ** Uniqueness of usernames and emails                              *)
(* ------------------------------------------------------------------ *)

(** C6 (uniqueness).  In every store reached from the empty one, the
    usernames of the users are pairwise distinct and so are their emails; a
    [createUser] whose username (as sent, or once trimmed) or whose email is
    the one of a user of the store answers 400 and leaves the store as it
    was. *)
Theorem uniqueness (s : Store) :
  reachable s ->
  NoDup (map User.username (users s)) /\
  NoDup (map User.email (users s)) /\
  forall oid body u,
    In u (users s) ->
    User.b_username body = Some (User.username u) \/
    option_map trim (User.b_username body) = Some (User.username u) \/
    User.b_email body = Some (User.email u) ->
    status (fst (createUser oid body s)) = BadRequest /\
    snd (createUser oid body s) = s.
Proof.
  intros R. apply reachable_ok in R. destruct R as [O1 O2 O3 O4 O5].
  split; [exact O3|]. split; [exact O4|].
  intros oid body u HI Hd. unfold createUser, User.create.
  assert (T : trim (User.username u) = User.username u).
  { rewrite Forall_forall in O5. apply O5. now apply in_map. }
  destruct (User.b_username body) as [name|] eqn:Bn; simpl; [|auto].
  destruct (User.b_email body) as [mail|] eqn:Bm; simpl; [|auto].
  destruct (User.valid_username (trim name) && User.valid_email mail);
    simpl; [|auto].
  rewrite (clashes_true _ u (users s) HI); [simpl; auto|]. simpl.
  destruct Hd as [E | [E | E]]; injection E as E.
  - left. now rewrite E.
  - left. now rewrite E.
  - right. now rewrite E.
Qed.

Lemma uniqueness_witness :
  reachable pair /\
  NoDup (map User.username (users pair)) /\
  NoDup (map User.email (users pair)) /\
  forall oid body u,
    In u (users pair) ->
    User.b_username body = Some (User.username u) \/
    option_map trim (User.b_username body) = Some (User.username u) \/
    User.b_email body = Some (User.email u) ->
    status (fst (createUser oid body pair)) = BadRequest /\
    snd (createUser oid body pair) = pair.
Proof.
  assert (R : reachable pair) by (eexists; reflexivity).
  split; [exact R | exact (uniqueness pair R)].
Defined.

(* ------------------------------------------------------------------ *)
(** ** Append on thought create                                        *)
(* ------------------------------------------------------------------ *)

Lemma findById_updateOne_username (uid : ObjectId) (u : User.doc)
      (f : User.doc -> User.doc) (c : list User.doc) :
  NoDup (map User.username c) ->
  (forall d, User.id (f d) = User.id d) ->
  findById uid c = Some u ->
  findById uid (updateOne (User.sameUsername (User.username u)) f c) = Some (f u).
Proof.
  intros ND Hf. unfold findById, findOne.
  induction c as [|e r IH]; simpl; [discriminate|].
  inversion ND as [|? ? N1 N2]; subst.
  destruct (hasId uid e) eqn:E.
  - intros X. injection X as ->.
    unfold User.sameUsername. rewrite String.eqb_refl. simpl.
    unfold hasId, _id, User.document in *. now rewrite Hf, E.
  - intros X. assert (HI : In u r) by (apply find_some in X; tauto).
    assert (NE : User.sameUsername (User.username u) e = false).
    { apply String_eqb_false. intros Q. apply N1. rewrite Q. now apply in_map. }
    rewrite NE. simpl. rewrite E. now apply IH.
Qed.

Lemma count_occ_snoc (l : list ObjectId) (x : ObjectId) :
  count_occ N.eq_dec (push x l) x = S (count_occ N.eq_dec l x).
Proof.
  unfold push. rewrite count_occ_app. simpl.
  destruct (N.eq_dec x x); [apply Nat.add_1_r | congruence].
Qed.

(** C5, as the handler has it.  When [createThought] answers 200 for a
    payload whose [username] is the one of a user [u] of the store, the
    created thought is in the store and its identifier has been appended to
    the thoughts of [u]: it occurs there once more than before, hence exactly
    once when the list did not hold it already.
    ([store_ok] holds in every reachable store: [reachable_ok].) *)
Theorem createThought_append (oid uid : ObjectId) (body : Thought.body)
        (s : Store) (u : User.doc) :
  store_ok s ->
  findById uid (users s) = Some u ->
  Thought.b_username body = Some (User.username u) ->
  status (fst (createThought oid body s)) = OK ->
  findById oid (thoughts (snd (createThought oid body s))) <> None /\
  thoughtsOf uid (snd (createThought oid body s)) = Some (push oid (User.thoughts u)) /\
  count_occ N.eq_dec (push oid (User.thoughts u)) oid
  = S (count_occ N.eq_dec (User.thoughts u) oid) /\
  (~ In oid (User.thoughts u) ->
   count_occ N.eq_dec (push oid (User.thoughts u)) oid = 1%nat).
Proof.
  intros O F Bn. unfold createThought, Thought.create. rewrite Bn.
  destruct (Thought.b_thoughtText body) as [text|]; simpl; [|discriminate].
  destruct (Thought.valid_thoughtText text
            && Thought.valid_username (User.username u)); simpl; [|discriminate].
  unfold insertOne. destruct (existsb _ (thoughts s)) eqn:X; simpl; [discriminate|].
  intros _. apply existsb_hasId in X. change (_id (Thought.mk oid text (User.username u))) with oid in *.
  split; [|split; [|split]].
  - rewrite findById_snoc, X. unfold hasId. simpl.
    change (_id (Thought.mk oid text (User.username u))) with oid.
    rewrite N.eqb_refl. discriminate.
  - unfold thoughtsOf, byUsername. simpl.
    assert (T : trim (User.username u) = User.username u).
    { pose proof (ok_trimmed s O) as O5. rewrite Forall_forall in O5.
      apply O5. apply in_map. apply findById_In in F. tauto. }
    rewrite T.
    rewrite (findById_updateOne_username uid u (pushThoughts oid) (users s)
               (ok_usernames s O) (fun _ => eq_refl) F).
    reflexivity.
  - apply count_occ_snoc.
  - intros NI. rewrite count_occ_snoc.
    apply (count_occ_not_In N.eq_dec) in NI. now rewrite NI.
Qed.

Lemma createThought_append_witness :
  (store_ok busy /\
   findById 2 (users busy) = Some (User.mk 2 "def" "d@e.org" [12] []) /\
   Thought.b_username (newThought "more" "def") = Some "def" /\
   status (fst (createThought 13 (newThought "more" "def") busy)) = OK) /\
  findById 13 (thoughts (snd (createThought 13 (newThought "more" "def") busy)))
  <> None /\
  thoughtsOf 2 (snd (createThought 13 (newThought "more" "def") busy))
  = Some (push 13 [12]) /\
  count_occ N.eq_dec (push 13 [12]) 13 = S (count_occ N.eq_dec [12] 13) /\
  (~ In 13 [12] -> count_occ N.eq_dec (push 13 [12]) 13 = 1%nat).
Proof.
  split.
  - split; [exact store_ok_busy | repeat split].
  - apply (createThought_append 13 2 (newThought "more" "def") busy
             (User.mk 2 "def" "d@e.org" [12] []));
      [exact store_ok_busy | reflexivity | reflexivity | reflexivity].
Defined.

(** C5 fails as stated: user "abc" was created with a [thoughts] array that
    names thought 10; creating thought 10 for "abc" answers 200 and the list
    then holds the identifier twice. *)
Lemma createThought_twice_listed :
  reachable preloaded /\
  findById 1 (users preloaded) = Some (User.mk 1 "abc" "a@b.com" [10] []) /\
  status (fst (createThought 10 (newThought "hi" "abc") preloaded)) = OK /\
  thoughtsOf 1 (snd (createThought 10 (newThought "hi" "abc") preloaded))
  = Some [10; 10] /\
  count_occ N.eq_dec [10; 10] 10 = 2%nat.
Proof. split; [eexists; reflexivity | repeat split]. Qed.

(* ------------------------------------------------------------------ *)
(** ** The friendship relation as an invariant                         *)
(* ------------------------------------------------------------------ *)

Lemma friends_ok_mutual (s : Store) :
  NoDup (map _id (users s)) -> (friends_ok s <-> mutual s).
Proof.
  intros ND. unfold friends_ok, mutual, friendsOf. split.
  - intros H a fa Fa b Hb.
    destruct (findById a (users s)) as [u|] eqn:F; [|discriminate].
    injection Fa as <-. apply findById_In in F. destruct F as [HI <-].
    destruct (H u HI b Hb) as (v & Fv & Hv).
    exists (User.friends v). now rewrite Fv.
  - intros H u HI b Hb.
    pose proof (In_findById (users s) u ND HI) as F.
    destruct (H (_id u) (User.friends u)) with (b := b) as (fb & Fb & Hfb);
      [now rewrite F | exact Hb |].
    destruct (findById b (users s)) as [v|]; [|discriminate].
    injection Fb as <-. now exists v.
Qed.

(** A handler that shows every user the friends it had. *)
Lemma mutual_same_view (s s' : Store) :
  (forall x, friendsOf x s' = friendsOf x s) -> mutual s -> mutual s'.
Proof.
  intros V M a fa Fa b Hb. rewrite V in Fa.
  destruct (M a fa Fa b Hb) as (fb & Fb & Hfb).
  exists fb. now rewrite V.
Qed.

Lemma friendsOf_updateOne_keep (x : ObjectId) (p : User.doc -> bool)
      (f : User.doc -> User.doc) (c : list User.doc) (ts ts' : list Thought.doc) :
  (forall d, User.id (f d) = User.id d) ->
  (forall d, User.friends (f d) = User.friends d) ->
  friendsOf x (mkStore (updateOne p f c) ts') = friendsOf x (mkStore c ts).
Proof.
  intros Hi Hf. unfold friendsOf. simpl.
  now apply findById_updateOne_proj.
Qed.

(** [addFriend] between two users of the store. *)
Lemma mutual_befriended (a b : ObjectId) (s : Store) (ts : list Thought.doc) :
  findById a (users s) <> None -> findById b (users s) <> None ->
  mutual s -> mutual (mkStore (befriended a b (users s)) ts).
Proof.
  intros Ea Eb M.
  assert (V : forall x fx', friendsOf x (mkStore (befriended a b (users s)) ts) = Some fx' ->
            exists fx, friendsOf x s = Some fx /\
              forall y, In y fx' <-> In y fx \/ (x = a /\ y = b) \/ (x = b /\ y = a)).
  { intros x fx'. unfold friendsOf. simpl. rewrite findById_befriended.
    destruct (findById x (users s)) as [u|]; simpl; [|discriminate].
    intros E. injection E as <-. exists (User.friends u). split; [reflexivity|].
    intros y. destruct (N.eqb_spec x b); destruct (N.eqb_spec x a); simpl;
      rewrite ?In_addToSet; subst; intuition auto. }
  assert (W : forall x fx, friendsOf x s = Some fx ->
            exists fx', friendsOf x (mkStore (befriended a b (users s)) ts) = Some fx').
  { intros x fx. unfold friendsOf. simpl. rewrite findById_befriended.
    destruct (findById x (users s)); simpl; [eauto | discriminate]. }
  assert (Sa : exists fa, friendsOf a s = Some fa)
    by (unfold friendsOf; destruct (findById a (users s)); simpl; [eauto | tauto]).
  assert (Sb : exists fb, friendsOf b s = Some fb)
    by (unfold friendsOf; destruct (findById b (users s)); simpl; [eauto | tauto]).
  intros x fx' Fx' y Hy.
  destruct (V x fx' Fx') as (fx & Fx & Hx). apply Hx in Hy.
  assert (K : exists fy, friendsOf y s = Some fy /\
                (In x fy \/ (y = a /\ x = b) \/ (y = b /\ x = a))).
  { destruct Hy as [Hy | [[-> ->] | [-> ->]]].
    - destruct (M x fx Fx y Hy) as (fy & Fy & Hfy). eauto.
    - destruct Sb as [fb Fb]. exists fb. auto.
    - destruct Sa as [fa Fa]. exists fa. auto. }
  destruct K as (fy & Fy & Hfy).
  destruct (W y fy Fy) as [fy' Fy']. exists fy'. split; [exact Fy'|].
  destruct (V y fy' Fy') as (fy0 & Fy0 & Hy0). rewrite Fy in Fy0.
  injection Fy0 as <-. now apply Hy0.
Qed.

(** [removeFriend]. *)
Lemma mutual_unfriended (a b : ObjectId) (s : Store) (ts : list Thought.doc) :
  mutual s -> mutual (mkStore (unfriended a b (users s)) ts).
Proof.
  intros M.
  assert (V : forall x fx', friendsOf x (mkStore (unfriended a b (users s)) ts) = Some fx' ->
            exists fx, friendsOf x s = Some fx /\
              forall y, In y fx' <->
                        In y fx /\ ~ (x = a /\ y = b) /\ ~ (x = b /\ y = a)).
  { intros x fx'. unfold friendsOf. simpl. rewrite findById_unfriended.
    destruct (findById x (users s)) as [u|]; simpl; [|discriminate].
    intros E. injection E as <-. exists (User.friends u). split; [reflexivity|].
    intros y. destruct (N.eqb_spec x b); destruct (N.eqb_spec x a); simpl;
      rewrite ?In_pull; subst; intuition auto. }
  assert (W : forall x fx, friendsOf x s = Some fx ->
            exists fx', friendsOf x (mkStore (unfriended a b (users s)) ts) = Some fx').
  { intros x fx. unfold friendsOf. simpl. rewrite findById_unfriended.
    destruct (findById x (users s)); simpl; [eauto | discriminate]. }
  intros x fx' Fx' y Hy.
  destruct (V x fx' Fx') as (fx & Fx & Hx). apply Hx in Hy.
  destruct Hy as (Hy & N1 & N2).
  destruct (M x fx Fx y Hy) as (fy & Fy & Hfy).
  destruct (W y fy Fy) as [fy' Fy']. exists fy'. split; [exact Fy'|].
  destruct (V y fy' Fy') as (fy0 & Fy0 & Hy0). rewrite Fy in Fy0.
  injection Fy0 as <-. apply Hy0. tauto.
Qed.

Lemma mutual_createUser oid body s :
  mutual s -> friend_safe (PostUser oid body) s = true ->
  mutual (snd (createUser oid body s)).
Proof.
  intros M Sf. unfold createUser, User.create.
  destruct (User.b_username body) as [name|]; simpl; [|exact M].
  destruct (User.b_email body) as [mail|]; simpl; [|exact M].
  destruct (User.valid_username (trim name) && User.valid_email mail);
    simpl; [|exact M].
  destruct (User.clashes _ (users s)); simpl; [exact M|].
  unfold insertOne. destruct (existsb _ (users s)); simpl; [exact M|].
  assert (E : orElse (User.b_friends body) [] = []).
  { simpl in Sf. destruct (User.b_friends body) as [[|x l]|];
      [reflexivity | discriminate | reflexivity]. }
  rewrite E. intros a fa. unfold friendsOf at 1. simpl. rewrite findById_snoc.
  destruct (findById a (users s)) as [u|] eqn:F; simpl.
  - intros X b Hb. injection X as <-.
    destruct (M a (User.friends u)) with (b := b) as (fb & Fb & Hfb);
      [unfold friendsOf; now rewrite F | exact Hb |].
    exists fb. split; [|exact Hfb].
    unfold friendsOf in *. simpl. rewrite findById_snoc.
    destruct (findById b (users s)); [exact Fb | discriminate].
  - destruct (hasId a _); simpl; [|discriminate].
    intros X b Hb. injection X as <-. destruct Hb.
Qed.

Lemma mutual_updateUser i body s :
  mutual s -> friend_safe (PutUser i body) s = true ->
  mutual (snd (updateUser i body s)).
Proof.
  intros M Sf. unfold updateUser, User.findByIdAndUpdateBody.
  destruct (User.validUpdate (User.cast body)); simpl; [|exact M].
  destruct (findById i (users s)) as [u|] eqn:F; simpl; [|destruct s; exact M].
  destruct (User.clashes _ _); simpl; [exact M|].
  unfold findByIdAndUpdate, findOneAndUpdate.
  fold (findById i (users s)). rewrite F. simpl.
  apply (mutual_same_view s); [|exact M].
  intros x. destruct s as [us ts]. apply friendsOf_updateOne_keep; [reflexivity|].
  intros d. unfold User.apply, User.cast. simpl in *.
  destruct (User.b_friends body); [discriminate | reflexivity].
Qed.

Lemma mutual_deleteUser i s :
  store_ok s -> mutual s -> friend_safe (DeleteUser i) s = true ->
  mutual (snd (deleteUser i s)).
Proof.
  intros O M Sf. unfold deleteUser, findByIdAndDelete, findOneAndDelete.
  fold (findById i (users s)). simpl in Sf.
  destruct (findById i (users s)) as [u|] eqn:F; simpl.
  - assert (V : forall x, friendsOf x (mkStore (deleteOne (hasId i) (users s))
                   (deleteMany (Thought.sameUsername (User.username u)) (thoughts s)))
                          = if N.eqb x i then None else friendsOf x s).
    { intros x. unfold friendsOf. simpl.
      rewrite findById_deleteOne by exact (ok_user_ids s O).
      now destruct (N.eqb x i). }
    intros a fa. rewrite V. destruct (N.eqb_spec a i) as [->|Na]; [discriminate|].
    intros Fa b Hb. destruct (M a fa Fa b Hb) as (fb & Fb & Hfb).
    exists fb. split; [|exact Hfb]. rewrite V.
    destruct (N.eqb_spec b i) as [->|Nb]; [|exact Fb].
    exfalso. unfold friendsOf in Fb. rewrite F in Fb. injection Fb as <-.
    rewrite forallb_forall in Sf. apply Sf in Hfb. apply N.eqb_eq in Hfb.
    congruence.
  - rewrite deleteOne_none by exact F. now destruct s.
Qed.

Lemma mutual_addFriend a b s :
  mutual s -> friend_safe (PostFriend a b) s = true ->
  mutual (snd (addFriend a b s)).
Proof.
  intros M Sf. simpl in Sf.
  destruct (findById a (users s)) as [ua|] eqn:Fa.
  - destruct (findById b (users s)) as [ub|] eqn:Fb; [|discriminate].
    rewrite (addFriend_found a b s ua Fa), Fb.
    assert (X : mutual (mkStore (befriended a b (users s)) (thoughts s)))
      by (apply mutual_befriended; [congruence | congruence | exact M]).
    now destruct (N.eqb b a).
  - now rewrite (addFriend_missing a b s Fa).
Qed.

Lemma mutual_removeFriend a b s : mutual s -> mutual (snd (removeFriend a b s)).
Proof.
  intros M. destruct (findById a (users s)) as [ua|] eqn:Fa.
  - rewrite (removeFriend_found a b s ua Fa). simpl.
    now apply mutual_unfriended.
  - now rewrite (removeFriend_missing a b s Fa).
Qed.

Lemma mutual_createThought oid body s :
  mutual s -> mutual (snd (createThought oid body s)).
Proof.
  intros M. unfold createThought, Thought.create.
  destruct (Thought.b_thoughtText body) as [text|]; simpl; [|exact M].
  destruct (Thought.b_username body) as [name|]; simpl; [|exact M].
  destruct (Thought.valid_thoughtText text && Thought.valid_username name);
    simpl; [|exact M].
  unfold insertOne. destruct (existsb _ (thoughts s)); simpl; [exact M|].
  apply (mutual_same_view s); [|exact M].
  intros x. destruct s as [us ts]. now apply friendsOf_updateOne_keep.
Qed.

Lemma mutual_updateThought i body s :
  mutual s -> mutual (snd (updateThought i body s)).
Proof.
  intros M. unfold updateThought, Thought.findByIdAndUpdateBody.
  destruct (Thought.validUpdate body); simpl; [|exact M].
  destruct (findOne (hasId i) (thoughts s)); simpl; exact M.
Qed.

Lemma mutual_deleteThought i s : mutual s -> mutual (snd (deleteThought i s)).
Proof.
  intros M. unfold deleteThought, findByIdAndDelete, findOneAndDelete.
  destruct (findOne (hasId i) (thoughts s)); simpl; [|exact M].
  apply (mutual_same_view s); [|exact M].
  intros x. destruct s as [us ts]. now apply friendsOf_updateOne_keep.
Qed.

Lemma mutual_step (r : Request) (s : Store) :
  store_ok s -> mutual s -> friend_safe r s = true ->
  mutual (snd (handle r s)).
Proof.
  intros O M Sf. destruct r; simpl;
    auto using mutual_createUser, mutual_updateUser, mutual_deleteUser,
      mutual_addFriend, mutual_removeFriend, mutual_createThought,
      mutual_updateThought, mutual_deleteThought.
  - unfold getUser. destruct (findById userId (users s)); auto.
  - unfold getThought. destruct (findById thoughtId (thoughts s)); auto.
Qed.

Lemma mutual_run (rs : list Request) (s : Store) :
  store_ok s -> mutual s -> friend_safe_run rs s = true ->
  mutual (serve rs s).
Proof.
  revert s. induction rs as [|r rs IH]; simpl; intros s O M Sf; [exact M|].
  apply andb_true_iff in Sf. destruct Sf as [S1 S2].
  apply IH; [now apply handle_ok | now apply mutual_step | exact S2].
Qed.

(** C3, as the handlers have it.  From a store in which every listed
    friend is a user that lists the owner in return (the empty store is
    one), that stays so while the requests served are not of the three kinds
    [friend_safe] names: a user payload carrying a [friends] array, the
    delete of a user that lists a friend other than itself, and [addFriend]
    from a user of the store to an identifier of no user.
    ([store_ok] holds in every reachable store: [reachable_ok].) *)
Theorem friends_invariant (rs : list Request) (s : Store) :
  store_ok s -> friends_ok s -> friend_safe_run rs s = true ->
  friends_ok (serve rs s).
Proof.
  intros O H Sf.
  apply friends_ok_mutual; [exact (ok_user_ids _ (serve_ok rs s O))|].
  apply mutual_run; [exact O | | exact Sf].
  apply friends_ok_mutual; [exact (ok_user_ids s O) | exact H].
Qed.

Lemma friends_ok_empty : friends_ok emptyStore.
Proof. intros u []. Qed.

Lemma friends_invariant_witness :
  (store_ok emptyStore /\ friends_ok emptyStore /\
   friend_safe_run
     [PostUser 1 (newUser "abc" "a@b.com"); PostUser 2 (newUser "def" "d@e.org");
      PostFriend 1 2; PostFriend 2 2; PostThought 10 (newThought "hi" "abc");
      PutUser 2 (User.mkBody (Some "ghi") None None None);
      DeleteFriend 2 1; DeleteUser 1] emptyStore = true) /\
  friends_ok
    (serve
       [PostUser 1 (newUser "abc" "a@b.com"); PostUser 2 (newUser "def" "d@e.org");
        PostFriend 1 2; PostFriend 2 2; PostThought 10 (newThought "hi" "abc");
        PutUser 2 (User.mkBody (Some "ghi") None None None);
        DeleteFriend 2 1; DeleteUser 1] emptyStore).
Proof.
  split.
  - split; [exact store_ok_empty | split; [exact friends_ok_empty | reflexivity]].
  - apply friends_invariant;
      [exact store_ok_empty | exact friends_ok_empty | reflexivity].
Defined.

(** C3 fails as stated: users 1 and 2 become friends and user 1 is deleted;
    the store is reachable, user 2 still lists identifier 1, and no user has
    that identifier. *)
Lemma friends_dangling :
  reachable dangling /\
  friendsOf 2 dangling = Some [1] /\
  findById 1 (users dangling) = None /\
  ~ friends_ok dangling.
Proof.
  split; [eexists; reflexivity|]. split; [reflexivity|]. split; [reflexivity|].
  intros H.
  destruct (H (User.mk 2 "def" "d@e.org" [] [1])) with (b := 1) as (v & F & _);
    [left; reflexivity | left; reflexivity | discriminate F].
Qed.

(* ------------------------------------------------------------------ *)
(** ** The examples of the interface description, run                  *)
(* ------------------------------------------------------------------ *)

Example email_accepted : User.valid_email "first.last+tag@mail-host.example.org" = true.
Proof. reflexivity. Qed.

Example email_short_domain_rejected : User.valid_email "a@b.c" = false.
Proof. reflexivity. Qed.

Example email_two_ats_rejected : User.valid_email "a@b@c.com" = false.
Proof. reflexivity. Qed.

Example trim_both_ends : trim "  ab c  " = "ab c".
Proof. reflexivity. Qed.

(** A first [POST /api/users] answers 200 with empty arrays, the same
    request again answers 400. *)
Example create_then_repeat :
  fst (createUser 1 (newUser "abc" "a@b.com") emptyStore)
  = res OK (JUser (User.mk 1 "abc" "a@b.com" [] [])) /\
  status (fst (createUser 2 (newUser "abc" "a@b.com") solo)) = BadRequest.
Proof. split; reflexivity. Qed.

(** A thought posted for "abc" shows among the thoughts of "abc". *)
Example thought_listed :
  thoughtsOf 1 (snd (createThought 10 (newThought "hi" "abc") solo)) = Some [10].
Proof. reflexivity. Qed.

(** After the delete of "abc", who wrote two thoughts, both answer 404. *)
Example thoughts_gone :
  status (fst (getThought 10 (snd (deleteUser 1 busy)))) = NotFound /\
  status (fst (getThought 11 (snd (deleteUser 1 busy)))) = NotFound /\
  status (fst (getThought 12 (snd (deleteUser 1 busy)))) = OK.
Proof. repeat split. Qed.

(* ------------------------------------------------------------------ *)
(** ** More on the array operators and on updates                      *)
(* ------------------------------------------------------------------ *)

Lemma pull_notin (x : ObjectId) (l : list ObjectId) : ~ In x l -> pull x l = l.
Proof.
  unfold pull. induction l as [|y l IH]; simpl; [reflexivity|].
  intros NI. destruct (N.eqb_spec y x) as [->|Ny]; simpl.
  - exfalso. apply NI. now left.
  - rewrite IH; [reflexivity | tauto].
Qed.

Lemma pull_snoc (x : ObjectId) (l : list ObjectId) :
  ~ In x l -> pull x (l ++ [x])%list = l.
Proof.
  intros NI. unfold pull. rewrite filter_app. simpl. rewrite N.eqb_refl. simpl.
  rewrite app_nil_r. now apply pull_notin.
Qed.

Lemma pull_addToSet (x : ObjectId) (l : list ObjectId) :
  ~ In x l -> pull x (addToSet x l) = l.
Proof.
  intros NI. unfold addToSet.
  destruct (existsb (N.eqb x) l) eqn:E; [now apply pull_notin|].
  now apply pull_snoc.
Qed.

Lemma pull_out (x : ObjectId) (l : list ObjectId) : ~ In x (pull x l).
Proof. rewrite In_pull. tauto. Qed.

Lemma pullFriends_fix (x : ObjectId) (d : User.doc) :
  ~ In x (User.friends d) -> pullFriends x d = d.
Proof.
  intros NI. unfold pullFriends, User.set_friends.
  rewrite pull_notin by exact NI. now destruct d.
Qed.

Section UpdateFacts.
Context {D : Type} `{Document D}.
Implicit Types (c : list D) (p : D -> bool) (f g : D -> D) (i j : ObjectId).

Lemma updateOne_twice p f g c :
  (forall d, p d = true -> p (f d) = true) ->
  updateOne p g (updateOne p f c) = updateOne p (fun d => g (f d)) c.
Proof.
  intros Hp. induction c as [|d r IH]; simpl; [reflexivity|].
  destruct (p d) eqn:E; simpl.
  - now rewrite (Hp d E).
  - now rewrite E, IH.
Qed.

Lemma updateOne_comm i j f g c :
  i <> j ->
  (forall d, _id (f d) = _id d) -> (forall d, _id (g d) = _id d) ->
  updateOne (hasId i) f (updateOne (hasId j) g c)
  = updateOne (hasId j) g (updateOne (hasId i) f c).
Proof.
  intros Nij Hf Hg. induction c as [|d r IH]; simpl; [reflexivity|].
  destruct (hasId j d) eqn:J; destruct (hasId i d) eqn:I; simpl.
  - apply hasId_true in J. apply hasId_true in I. congruence.
  - assert (X : hasId i (g d) = false)
      by (unfold hasId in *; now rewrite Hg).
    now rewrite X, J.
  - assert (X : hasId j (f d) = false)
      by (unfold hasId in *; now rewrite Hf).
    now rewrite X, I.
  - now rewrite J, I, IH.
Qed.

End UpdateFacts.

(* ------------------------------------------------------------------ *)
(** ** Friendship: what the claims leave open                          *)
(* ------------------------------------------------------------------ *)


Lemma unfriended_idem (a b : ObjectId) (c : list User.doc) :
  unfriended a b (unfriended a b c) = unfriended a b c.
Proof.
  unfold unfriended at 1.
  rewrite (updateOne_fix a (pullFriends b) (unfriended a b c)).
  - apply updateOne_fix. intros d. rewrite findById_unfriended, N.eqb_refl.
    destruct (findById b c) as [u|]; simpl; [|discriminate].
    intros E. injection E as <-. apply pullFriends_fix. simpl. apply pull_out.
  - intros d. rewrite findById_unfriended, N.eqb_refl.
    destruct (findById a c) as [u|]; simpl; [|discriminate].
    intros E. injection E as <-. apply pullFriends_fix.
    destruct (N.eqb_spec a b) as [->|Nab]; simpl; apply pull_out.
Qed.

(** X2.  Serving [removeFriend a b] a second time leaves the store as the
    first call left it. *)
Theorem removeFriend_idempotent (a b : ObjectId) (s : Store) :
  snd (removeFriend a b (snd (removeFriend a b s))) = snd (removeFriend a b s).
Proof.
  destruct (findById a (users s)) as [ua|] eqn:Fa.
  - rewrite (removeFriend_found a b s ua Fa). simpl.
    destruct (findById a (unfriended a b (users s))) as [ua'|] eqn:Fa'.
    + rewrite (removeFriend_found a b
                 (mkStore (unfriended a b (users s)) (thoughts s)) ua' Fa').
      simpl. now rewrite unfriended_idem.
    + rewrite findById_unfriended, Fa in Fa'. discriminate.
  - rewrite (removeFriend_missing a b s Fa). simpl.
    now rewrite (removeFriend_missing a b s Fa).
Qed.

Lemma unfriended_befriended (a b : ObjectId) (c : list User.doc) :
  (forall u, findById a c = Some u -> ~ In b (User.friends u)) ->
  (forall u, findById b c = Some u -> ~ In a (User.friends u)) ->
  unfriended a b (befriended a b c) = c.
Proof.
  intros Ha Hb. unfold unfriended, befriended.
  destruct (N.eq_dec a b) as [->|Nab].
  - rewrite !updateOne_twice by (intros d E; exact E).
    apply updateOne_fix. intros d F. specialize (Ha d F).
    unfold pullFriends, addToSetFriends, User.set_friends. simpl.
    assert (E : pull b (pull b (addToSet b (addToSet b (User.friends d))))
                = User.friends d).
    { rewrite (addToSet_In b (addToSet b (User.friends d)))
        by (apply In_addToSet; now right).
      rewrite pull_addToSet by exact Ha. now apply pull_notin. }
    rewrite E. now destruct d.
  - rewrite (updateOne_comm a b (pullFriends b) (addToSetFriends a))
      by (auto || reflexivity).
    rewrite updateOne_twice by (intros d E; exact E).
    rewrite (updateOne_twice (hasId a)) by (intros d E; exact E).
    rewrite (updateOne_fix a (fun d => pullFriends b (addToSetFriends b d)) c).
    + apply updateOne_fix. intros d F. specialize (Hb d F).
      unfold pullFriends, addToSetFriends, User.set_friends. simpl.
      rewrite pull_addToSet by exact Hb. now destruct d.
    + intros d F. specialize (Ha d F).
      unfold pullFriends, addToSetFriends, User.set_friends. simpl.
      rewrite pull_addToSet by exact Ha. now destruct d.
Qed.

(** X3.  For two users of the store of whom neither lists the other,
    [addFriend a b] followed by [removeFriend a b] gives the store back,
    document for document. *)
Theorem addFriend_removeFriend (a b : ObjectId) (s : Store) (ua ub : User.doc) :
  findById a (users s) = Some ua ->
  findById b (users s) = Some ub ->
  ~ In b (User.friends ua) ->
  ~ In a (User.friends ub) ->
  status (fst (removeFriend a b (snd (addFriend a b s)))) = OK /\
  snd (removeFriend a b (snd (addFriend a b s))) = s.
Proof.
  intros Fa Fb Na Nb.
  assert (E : snd (addFriend a b s)
              = mkStore (befriended a b (users s)) (thoughts s)).
  { rewrite (addFriend_found a b s ua Fa).
    now destruct (if N.eqb b a then _ else _). }
  rewrite E.
  destruct (findById a (befriended a b (users s))) as [ua'|] eqn:Fa'.
  - rewrite (removeFriend_found a b
               (mkStore (befriended a b (users s)) (thoughts s)) ua' Fa').
    simpl. split; [reflexivity|].
    rewrite unfriended_befriended.
    + now destruct s.
    + intros u F. rewrite Fa in F. now injection F as <-.
    + intros u F. rewrite Fb in F. now injection F as <-.
  - rewrite findById_befriended, Fa in Fa'. discriminate.
Qed.

Lemma addFriend_removeFriend_witness :
  (findById 1 (users pair) = Some (User.mk 1 "abc" "a@b.com" [] []) /\
   findById 2 (users pair) = Some (User.mk 2 "def" "d@e.org" [] []) /\
   ~ In 2 (User.friends (User.mk 1 "abc" "a@b.com" [] [])) /\
   ~ In 1 (User.friends (User.mk 2 "def" "d@e.org" [] []))) /\
  status (fst (removeFriend 1 2 (snd (addFriend 1 2 pair)))) = OK /\
  snd (removeFriend 1 2 (snd (addFriend 1 2 pair))) = pair.
Proof.
  split.
  - split; [reflexivity | split; [reflexivity | split; intros []]].
  - apply (addFriend_removeFriend 1 2 pair
             (User.mk 1 "abc" "a@b.com" [] []) (User.mk 2 "def" "d@e.org" [] []));
      [reflexivity | reflexivity | intros [] | intros []].
Defined.

(* ------------------------------------------------------------------ *)
(** ** Delete of a user: what stays                                    *)
(* ------------------------------------------------------------------ *)

(** X4.  [deleteUser] of a user [u] removes that document and the thoughts
    carrying its username, and nothing else: every other user document is
    as before (also its [friends], where the deleted identifier may remain),
    and a thought survives exactly when its [username] is another one.
    ([store_ok] holds in every reachable store.) *)
Theorem deleteUser_frame (i : ObjectId) (s : Store) (u : User.doc) :
  store_ok s ->
  findById i (users s) = Some u ->
  (forall x, x <> i ->
     findById x (users (snd (deleteUser i s))) = findById x (users s)) /\
  (forall t, In t (thoughts (snd (deleteUser i s))) <->
             In t (thoughts s) /\ Thought.username t <> User.username u).
Proof.
  intros O F. unfold deleteUser, findByIdAndDelete, findOneAndDelete.
  fold (findById i (users s)). rewrite F. simpl. split.
  - intros x Hx. rewrite findById_deleteOne by exact (ok_user_ids s O).
    apply N.eqb_neq in Hx. now rewrite Hx.
  - intros t. unfold deleteMany. rewrite filter_In, negb_true_iff.
    unfold Thought.sameUsername. now rewrite String_eqb_false.
Qed.

Lemma deleteUser_frame_witness :
  (store_ok busy /\
   findById 1 (users busy) = Some (User.mk 1 "abc" "a@b.com" [10; 11] [])) /\
  (forall x, x <> 1 ->
     findById x (users (snd (deleteUser 1 busy))) = findById x (users busy)) /\
  (forall t, In t (thoughts (snd (deleteUser 1 busy))) <->
             In t (thoughts busy) /\ Thought.username t <> "abc").
Proof.
  split; [split; [exact store_ok_busy | reflexivity]|].
  apply (deleteUser_frame 1 busy (User.mk 1 "abc" "a@b.com" [10; 11] []));
    [exact store_ok_busy | reflexivity].
Defined.

(* ------------------------------------------------------------------ *)
(** ** Failed requests                                                 *)
(* ------------------------------------------------------------------ *)

